(** * The session cart of [cart/cart.py]

    A shallow embedding of the [Cart] class: the Python values it coerces,
    the request it is bound to (session, user, profile table, catalogue)
    and its seven methods, followed by the properties of the cart. *)

From Stdlib Require Import Ascii String ZArith QArith Qcanon.
From stdpp Require Import base numbers strings pretty list gmap.

Set Warnings "-register-all".

Local Open Scope Z_scope.

(** ** Python values, [str] and [int] *)

Module Py.

(** The values a view hands to the cart as [product] or [quantity].  An
    object carries the text [str] gives for it and its [id] attribute when
    it has one; [None], booleans, integers and strings have no [id]. *)
Inductive value : Type :=
| VNone
| VBool (b : bool)
| VInt (z : Z)
| VStr (s : string)
| VObj (shown : string) (attr_id : option value).

Inductive exn : Type :=
| TypeError
| ValueError.

Global Instance exn_eq_dec : EqDecision exn.
Proof. solve_decision. Defined.

(** [v.id] where the attribute exists. *)
Definition getattr_id (v : value) : option value :=
  match v with
  | VObj _ a => a
  | _ => None
  end.

(** [hasattr(v, "id")] *)
Definition hasattr_id (v : value) : bool :=
  match getattr_id v with
  | Some _ => true
  | None => false
  end.

(** [str(v)] *)
Definition str (v : value) : string :=
  match v with
  | VNone => "None"
  | VBool true => "True"
  | VBool false => "False"
  | VInt z => pretty z
  | VStr s => s
  | VObj shown _ => shown
  end.

Section Int.
(** The decimal reader behind [int(s)] for a string [s]: it is the
    runtime's, and answers [None] where [int] raises [ValueError]. *)
Variable int_of_str : string → option Z.

(** [int(v)]: the integer, or the exception raised. *)
Definition int (v : value) : exn + Z :=
  match v with
  | VNone => inl TypeError
  | VBool b => inr (if b then 1 else 0)
  | VInt z => inr z
  | VStr s => match int_of_str s with
              | Some z => inr z
              | None => inl ValueError
              end
  | VObj _ _ => inl TypeError
  end.
End Int.

(** A reader for witnesses and examples: an optional sign followed by
    ASCII digits. *)
Definition digit_of (c : ascii) : option Z :=
  let n := Z.of_nat (nat_of_ascii c) in
  if bool_decide (48 ≤ n ≤ 57) then Some (n - 48) else None.

Fixpoint digits_go (acc : Z) (s : string) : option Z :=
  match s with
  | EmptyString => Some acc
  | String c s' =>
      match digit_of c with
      | Some d => digits_go (10 * acc + d) s'
      | None => None
      end
  end.

Definition digits (s : string) : option Z :=
  match s with
  | EmptyString => None
  | _ => digits_go 0 s
  end.

Definition plain_decimal (s : string) : option Z :=
  match s with
  | String "-" s' => Z.opp <$> digits s'
  | String "+" s' => digits s'
  | _ => digits s
  end.

End Py.

(** ** The request a cart is bound to *)

(** A dict object lives in the heap and is named by its reference, so that
    the session entry and [self.cart] can be one and the same dict. *)
Definition loc : Type := positive.

Record user : Type := User {
  is_authenticated : bool;
  user_pk : option Z            (* [request.user.id] *)
}.

(** A row of [Profile]: the user it belongs to and the mirrored cart. *)
Record profile : Type := Profile {
  user_id : Z;
  old_cart : option (gmap string Z)
}.

Module Product.
(** A catalogue row.  [is_sale] is read with [getattr(.., False)], so the
    attribute may be missing. *)
Record t : Type := Make {
  id : Py.value;
  price : Qc;
  sale_price : Qc;
  is_sale : option bool
}.
End Product.

Record world : Type := World {
  heap : gmap loc (gmap string Z);
  session : gmap string loc;            (* [request.session] *)
  session_modified : bool;              (* [request.session.modified] *)
  request_user : user;                  (* [request.user] *)
  profiles : list profile;              (* [Profile.objects] *)
  products : list Product.t             (* [Product.objects] *)
}.

Definition set_heap (h : gmap loc (gmap string Z)) (w : world) : world :=
  World h (session w) (session_modified w) (request_user w) (profiles w) (products w).
Definition set_session (s : gmap string loc) (w : world) : world :=
  World (heap w) s (session_modified w) (request_user w) (profiles w) (products w).
Definition set_modified (b : bool) (w : world) : world :=
  World (heap w) (session w) b (request_user w) (profiles w) (products w).
Definition set_profiles (ps : list profile) (w : world) : world :=
  World (heap w) (session w) (session_modified w) (request_user w) ps (products w).

(** ** Computations that change the world or raise *)

Inductive outcome (A : Type) : Type :=
| Returns (a : A) (w : world)
| Raises (e : Py.exn) (w : world).
Arguments Returns {A} a w.
Arguments Raises {A} e w.

Definition M (A : Type) : Type := world → outcome A.

Definition ret {A} (a : A) : M A := λ w, Returns a w.
Definition raise {A} (e : Py.exn) : M A := λ w, Raises e w.
Definition bind {A B} (m : M A) (k : A → M B) : M B := λ w,
  match m w with
  | Returns a w' => k a w'
  | Raises e w' => Raises e w'
  end.
Definition lift {A} (r : Py.exn + A) : M A :=
  match r with
  | inl e => raise e
  | inr a => ret a
  end.
Definition modify (f : world → world) : M unit := λ w, Returns () (f w).

Notation "'let*' x := m 'in' k" := (bind m (λ x, k))
  (at level 10, x name, m at level 100, k at level 200).
Notation "m ;;; k" := (bind m (λ _, k))
  (at level 100, k at level 200, right associativity).

(** The world a computation ends in, whether it returned or raised. *)
Definition final {A} (o : outcome A) : world :=
  match o with
  | Returns _ w => w
  | Raises _ w => w
  end.

(** ** The cart *)

Module Cart.

Definition SESSION_KEY : string := "cart".

(** A cart object.  [self.request] and [self.session] are the request of
    the world it runs in; [self.cart] is a reference to the dict. *)
Record t : Type := Bound { cart : loc }.

(** [session[key] = d], which on a session also raises the dirty flag. *)
Definition session_setitem (key : string) (d : loc) : M unit :=
  modify (λ w, set_modified true (set_session (<[key := d]> (session w)) w)).

(** A new empty dict [{}]. *)
Definition new_dict : M loc := λ w,
  let d := fresh (dom (heap w)) in
  Returns d (set_heap (<[d := ∅]> (heap w)) w).

Definition __init__ : M t := λ w,
  match session w !! SESSION_KEY with
  | None =>
      (let* d := new_dict in
       session_setitem SESSION_KEY d ;;;
       ret (Bound d)) w
  | Some d => Returns (Bound d) w
  end.

(** The dict [self.cart] refers to. *)
Definition quantities (self : t) (w : world) : gmap string Z :=
  heap w !!! cart self.

(** [key in self.cart] *)
Definition contains (self : t) (key : string) : M bool := λ w,
  Returns (bool_decide (is_Some (quantities self w !! key))) w.

(** [self.cart[key] = n] *)
Definition setitem (self : t) (key : string) (n : Z) : M unit :=
  modify (λ w, set_heap (<[cart self := <[key := n]> (quantities self w)]> (heap w)) w).

(** [del self.cart[key]] *)
Definition delitem (self : t) (key : string) : M unit :=
  modify (λ w, set_heap (<[cart self := delete key (quantities self w)]> (heap w)) w).

(** [Profile.objects.filter(user_id=uid).update(old_cart=c)] *)
Definition profile_update (uid : option Z) (c : gmap string Z)
    (rows : list profile) : list profile :=
  (λ r, if decide (Some (user_id r) = uid)
        then Profile (user_id r) (Some c) else r) <$> rows.

Definition _save (self : t) : M unit :=
  modify (set_modified true) ;;;
  λ w,
    if is_authenticated (request_user w)
    then Returns () (set_profiles
           (profile_update (user_pk (request_user w)) (quantities self w)
              (profiles w)) w)
    else Returns () w.

Definition _get_product_id (product : Py.value) : string :=
  Py.str (match Py.getattr_id product with
          | Some i => i
          | None => product
          end).

Section Methods.

(** The two collaborators whose code is not the cart's: the reader behind
    [int] on strings, and the comparison the catalogue's [id__in] lookup
    makes between a product's [id] and one cart key. *)
Variable int_of_str : string → option Z.
Variable id_matches : Py.value → string → bool.

Definition add (self : t) (product quantity : Py.value) : M unit :=
  let product_id := _get_product_id product in
  (let* present := contains self product_id in
   if present then ret ()
   else
     let* n := lift (Py.int int_of_str quantity) in
     setitem self product_id n) ;;;
  _save self.

(** [add(product)], with the default [quantity=1]. *)
Definition add_one (self : t) (product : Py.value) : M unit :=
  add self product (Py.VInt 1).

Definition update (self : t) (product quantity : Py.value) : M loc :=
  let product_id := _get_product_id product in
  (let* n := lift (Py.int int_of_str quantity) in
   setitem self product_id n) ;;;
  _save self ;;;
  ret (cart self).

Definition delete (self : t) (product : Py.value) : M unit :=
  let product_id := _get_product_id product in
  (let* present := contains self product_id in
   if present then delitem self product_id else ret ()) ;;;
  _save self.

Definition __len__ (self : t) : M Z := λ w,
  Returns (Z.of_nat (size (quantities self w))) w.

(** [Product.objects.filter(id__in=product_ids)], in catalogue order. *)
Definition id_in (product_ids : list string) (p : Product.t) : bool :=
  existsb (id_matches (Product.id p)) product_ids.

Definition get_products (self : t) : M (list Product.t) := λ w,
  let product_ids := elements (dom (quantities self w)) in
  Returns (List.filter (id_in product_ids) (products w)) w.

Definition get_quantities (self : t) : M loc := ret (cart self).

(** The price the loop picks for one product. *)
Definition unit_price (product : Product.t) : Qc :=
  if default false (Product.is_sale product)
  then Product.sale_price product
  else Product.price product.

Definition get_total_price (self : t) : M Qc :=
  let* products := get_products self in
  λ w,
    Returns
      (fold_left
         (λ total product,
            let quantity :=
              default 0 (quantities self w !! Py.str (Product.id product)) in
            let price := unit_price product in
            (total + price * Qc_of_Z quantity)%Qc)
         products 0%Qc)
      w.

(** The three mutating calls, so that they can be spoken of together. *)
Inductive call : Type :=
| Add (product quantity : Py.value)
| Update (product quantity : Py.value)
| Delete (product : Py.value).

Definition run (self : t) (c : call) : M unit :=
  match c with
  | Add product quantity => add self product quantity
  | Update product quantity => update self product quantity ;;; ret ()
  | Delete product => delete self product
  end.

Definition call_product (c : call) : Py.value :=
  match c with
  | Add product _ | Update product _ | Delete product => product
  end.

(** What [int(quantity)] gives for the quantity of a call, if it has one. *)
Definition call_int (c : call) : option (Py.exn + Z) :=
  match c with
  | Add _ quantity | Update _ quantity => Some (Py.int int_of_str quantity)
  | Delete _ => None
  end.

(** The carts reached from a new, empty cart by calls among the [allowed]
    ones that returned. *)
Inductive reachable_by (allowed : call → Prop) (self : t) : world → Prop :=
| reachable_new w :
    quantities self w = ∅ → reachable_by allowed self w
| reachable_call c w w' :
    reachable_by allowed self w → allowed c →
    run self c w = Returns () w' → reachable_by allowed self w'.

Definition reachable : t → world → Prop := reachable_by (λ _, True).

(** The calls whose quantity, if they take one and [int] accepts it, is not
    negative. *)
Definition nonneg_call (c : call) : Prop :=
  ∀ n, call_int c = Some (inr n) → 0 ≤ n.

(** No quantity of the mapping is negative. *)
Definition nonneg (m : gmap string Z) : Prop :=
  map_Forall (λ _ n, 0 ≤ n) m.

End Methods.

(** ** The sum the total is meant to be *)

(** What one catalogue product adds to the total of the cart [m]. *)
Definition line_total (m : gmap string Z) (p : Product.t) : Qc :=
  (unit_price p * Qc_of_Z (default 0%Z (m !! Py.str (Product.id p))))%Qc.

Definition sum_Qc (l : list Qc) : Qc := foldr Qcplus 0%Qc l.

(** The catalogue products one of whose comparisons with a key of [m]
    succeeds. *)
Definition matched (id_matches : Py.value → string → bool)
    (m : gmap string Z) (catalogue : list Product.t) : list Product.t :=
  List.filter
    (λ p, bool_decide
            (set_Exists (λ k, id_matches (Product.id p) k = true) (dom m)))
    catalogue.

(** ** Worlds the methods lead to *)

(** The world [_save] leaves. *)
Definition saved (self : t) (w : world) : world := final (_save self w).

(** The world in which the dict of [self.cart] has become [m]. *)
Definition with_quantities (self : t) (m : gmap string Z) (w : world) : world :=
  set_heap (<[cart self := m]> (heap w)) w.

(** ** Calls as changes of the mapping *)

(** What a call makes of the mapping [m] of the cart: the mapping it
    leaves, or the exception of [int(quantity)]. *)
Definition apply_call (int_of_str : string → option Z) (c : call)
    (m : gmap string Z) : Py.exn + gmap string Z :=
  match c with
  | Add product quantity =>
      match m !! _get_product_id product with
      | Some _ => inr m
      | None =>
          match Py.int int_of_str quantity with
          | inr n => inr (<[_get_product_id product := n]> m)
          | inl e => inl e
          end
      end
  | Update product quantity =>
      match Py.int int_of_str quantity with
      | inr n => inr (<[_get_product_id product := n]> m)
      | inl e => inl e
      end
  | Delete product => inr (base.delete (_get_product_id product) m)
  end.

(** A series of calls on one cart, one after the other. *)
Fixpoint run_all (int_of_str : string → option Z) (self : t)
    (cs : list call) : M unit :=
  match cs with
  | [] => ret ()
  | c :: cs' => run int_of_str self c ;;; run_all int_of_str self cs'
  end.

(** ** Sample data *)

(** The comparison of a catalogue whose keys are compared as text. *)
Definition str_matches (v : Py.value) (k : string) : bool :=
  bool_decide (Py.str v = k).

Definition anonymous : user := User false None.

(** A request with an empty session and no one logged in. *)
Definition blank (catalogue : list Product.t) : world :=
  World ∅ ∅ false anonymous [] catalogue.

(** A request whose session already holds the cart [m]. *)
Definition holding (m : gmap string Z) (u : user) (rows : list profile)
    (catalogue : list Product.t) : world :=
  World {[ 1%positive := m ]} {[ SESSION_KEY := 1%positive ]} false u rows
    catalogue.

Definition the_cart : t := Bound 1%positive.

Definition shop : list Product.t :=
  [ Product.Make (Py.VStr "p1") (Qc_of_Z 10) (Qc_of_Z 8) (Some false);
    Product.Make (Py.VStr "p2") (Qc_of_Z 20) (Qc_of_Z 15) (Some true) ].

(** ** How the methods run *)

Lemma _save_returns self w : _save self w = Returns () (saved self w).
Proof.
  unfold saved, _save, bind, modify; simpl.
  by destruct (is_authenticated (request_user w)).
Qed.

Lemma heap_saved self w : heap (saved self w) = heap w.
Proof.
  unfold saved, _save, bind, modify; simpl.
  by destruct (is_authenticated (request_user w)).
Qed.

Lemma quantities_saved self w : quantities self (saved self w) = quantities self w.
Proof. unfold quantities. by rewrite heap_saved. Qed.

Lemma session_saved self w : session (saved self w) = session w.
Proof.
  unfold saved, _save, bind, modify; simpl.
  by destruct (is_authenticated (request_user w)).
Qed.

Lemma products_saved self w : products (saved self w) = products w.
Proof.
  unfold saved, _save, bind, modify; simpl.
  by destruct (is_authenticated (request_user w)).
Qed.

Lemma user_saved self w : request_user (saved self w) = request_user w.
Proof.
  unfold saved, _save, bind, modify; simpl.
  by destruct (is_authenticated (request_user w)).
Qed.

Lemma modified_saved self w : session_modified (saved self w) = true.
Proof.
  unfold saved, _save, bind, modify; simpl.
  by destruct (is_authenticated (request_user w)).
Qed.

Lemma profiles_saved self w :
  profiles (saved self w) =
    if is_authenticated (request_user w)
    then profile_update (user_pk (request_user w)) (quantities self w) (profiles w)
    else profiles w.
Proof.
  unfold saved, _save, bind, modify; simpl.
  by destruct (is_authenticated (request_user w)).
Qed.

Lemma quantities_with self m w : quantities self (with_quantities self m w) = m.
Proof. unfold quantities, with_quantities; simpl. apply lookup_total_insert_eq. Qed.

Lemma with_quantities_fields self m w :
  session (with_quantities self m w) = session w
  ∧ session_modified (with_quantities self m w) = session_modified w
  ∧ request_user (with_quantities self m w) = request_user w
  ∧ profiles (with_quantities self m w) = profiles w
  ∧ products (with_quantities self m w) = products w.
Proof. done. Qed.

Section Running.

Variable int_of_str : string → option Z.

Lemma add_runs self product quantity w :
  add int_of_str self product quantity w =
    match quantities self w !! _get_product_id product with
    | Some _ => Returns () (saved self w)
    | None =>
        match Py.int int_of_str quantity with
        | inr n =>
            Returns ()
              (saved self
                 (with_quantities self
                    (<[_get_product_id product := n]> (quantities self w)) w))
        | inl e => Raises e w
        end
    end.
Proof.
  unfold add, bind, contains.
  destruct (quantities self w !! _get_product_id product) as [old|] eqn:E.
  - rewrite bool_decide_eq_true_2 by eauto. simpl. apply _save_returns.
  - rewrite bool_decide_eq_false_2 by (intros [? ?]; congruence).
    destruct (Py.int int_of_str quantity) as [e|n]; simpl; [done|].
    apply _save_returns.
Qed.

Lemma update_runs self product quantity w :
  update int_of_str self product quantity w =
    match Py.int int_of_str quantity with
    | inr n =>
        Returns (cart self)
          (saved self
             (with_quantities self
                (<[_get_product_id product := n]> (quantities self w)) w))
    | inl e => Raises e w
    end.
Proof.
  unfold update, bind.
  destruct (Py.int int_of_str quantity) as [e|n]; simpl; [done|].
  unfold setitem, modify. fold (with_quantities self
    (<[_get_product_id product := n]> (quantities self w)) w).
  by rewrite _save_returns.
Qed.

Lemma delete_runs self product w :
  delete self product w =
    match quantities self w !! _get_product_id product with
    | Some _ =>
        Returns ()
          (saved self
             (with_quantities self
                (base.delete (_get_product_id product) (quantities self w)) w))
    | None => Returns () (saved self w)
    end.
Proof.
  unfold delete, bind, contains.
  destruct (quantities self w !! _get_product_id product) as [old|] eqn:E.
  - rewrite bool_decide_eq_true_2 by eauto. simpl. apply _save_returns.
  - rewrite bool_decide_eq_false_2 by (intros [? ?]; congruence).
    simpl. apply _save_returns.
Qed.

End Running.

(** ** Adding, updating, deleting, counting *)

(** C1. For every cart and every product whose normalised id is [p]:
    when [p] is not a key, [add] puts [p] in with the quantity
    [int(quantity)]; when [p] is a key already, [add] returns and the whole
    mapping (indeed every dict) is what it was. *)
Theorem add_inserts_once int_of_str self product quantity w :
  let p := _get_product_id product in
  let m := quantities self w in
  (m !! p = None →
   ∀ n, Py.int int_of_str quantity = inr n →
     ∃ w', add int_of_str self product quantity w = Returns () w'
           ∧ quantities self w' = <[p := n]> m)
  ∧ (∀ old, m !! p = Some old →
     ∃ w', add int_of_str self product quantity w = Returns () w'
           ∧ quantities self w' = m
           ∧ heap w' = heap w).
Proof.
  intros p m. split.
  - intros Hnone n Hn. eexists. split.
    + rewrite add_runs. fold p m. rewrite Hnone, Hn. reflexivity.
    + by rewrite quantities_saved, quantities_with.
  - intros old Hold. eexists. split.
    + rewrite add_runs. fold p m. rewrite Hold. reflexivity.
    + split; [apply quantities_saved | apply heap_saved].
Qed.

Lemma add_inserts_once_witness :
  (∃ w', add Py.plain_decimal the_cart (Py.VStr "p1") (Py.VStr "3")
           (holding ∅ anonymous [] shop) = Returns () w'
         ∧ quantities the_cart w' = {[ "p1" := 3 ]})
  ∧ (∃ w', add Py.plain_decimal the_cart (Py.VStr "p1") (Py.VInt 7)
             (holding {[ "p1" := 3 ]} anonymous [] shop) = Returns () w'
           ∧ quantities the_cart w' = {[ "p1" := 3 ]}
           ∧ heap w' = {[ 1%positive := {[ "p1" := 3 ]} ]}).
Proof.
  split.
  - exact (proj1 (add_inserts_once Py.plain_decimal the_cart (Py.VStr "p1")
                    (Py.VStr "3") (holding ∅ anonymous [] shop))
             eq_refl 3 eq_refl).
  - exact (proj2 (add_inserts_once Py.plain_decimal the_cart (Py.VStr "p1")
                    (Py.VInt 7) (holding {[ "p1" := 3 ]} anonymous [] shop))
             3 eq_refl).
Defined.

(** C2. [update] sets the entry of the normalised id to [int(quantity)]
    whatever was there, and returns the cart's dict, which then is the
    updated mapping; it overwrites an id that [add] has just left alone;
    and [update(p, 5)] followed by [update(p, 2)] leaves [p] at 2. *)
Theorem update_overwrites int_of_str self product w :
  let p := _get_product_id product in
  (∀ quantity n, Py.int int_of_str quantity = inr n →
     ∃ w', update int_of_str self product quantity w = Returns (cart self) w'
           ∧ quantities self w' = <[p := n]> (quantities self w)
           ∧ quantities self w' !! p = Some n)
  ∧ (∀ old ignored quantity n w1,
       quantities self w !! p = Some old →
       add int_of_str self product ignored w = Returns () w1 →
       Py.int int_of_str quantity = inr n →
       quantities self w1 !! p = Some old
       ∧ ∃ w2, update int_of_str self product quantity w1 = Returns (cart self) w2
               ∧ quantities self w2 !! p = Some n)
  ∧ (∃ w1 w2,
       update int_of_str self product (Py.VInt 5) w = Returns (cart self) w1
       ∧ update int_of_str self product (Py.VInt 2) w1 = Returns (cart self) w2
       ∧ quantities self w2 !! p = Some 2).
Proof.
  intros p.
  assert (Hset : ∀ w0 quantity n, Py.int int_of_str quantity = inr n →
     ∃ w', update int_of_str self product quantity w0 = Returns (cart self) w'
           ∧ quantities self w' = <[p := n]> (quantities self w0)
           ∧ quantities self w' !! p = Some n).
  { intros w0 quantity n Hn. eexists. split; [|split].
    - rewrite update_runs, Hn. reflexivity.
    - by rewrite quantities_saved, quantities_with.
    - rewrite quantities_saved, quantities_with. apply lookup_insert_eq. }
  split; [apply Hset|]. split.
  - intros old ignored quantity n w1 Hold Hadd Hn.
    rewrite add_runs in Hadd. fold p in Hadd. rewrite Hold in Hadd.
    injection Hadd as <-. rewrite quantities_saved. split; [done|].
    destruct (Hset (saved self w) quantity n Hn) as (w2 & ? & _ & ?). eauto.
  - destruct (Hset w (Py.VInt 5) 5 eq_refl) as (w1 & H1 & _ & _).
    destruct (Hset w1 (Py.VInt 2) 2 eq_refl) as (w2 & H2 & _ & ?).
    eauto.
Qed.

Lemma update_overwrites_witness :
  (∃ w', update Py.plain_decimal the_cart (Py.VStr "p1") (Py.VStr "7")
           (holding {[ "p1" := 3 ]} anonymous [] shop)
         = Returns 1%positive w'
         ∧ quantities the_cart w' = {[ "p1" := 7 ]}
         ∧ quantities the_cart w' !! "p1" = Some 7)
  ∧ (quantities the_cart
       (saved the_cart (holding {[ "p1" := 3 ]} anonymous [] shop)) !! "p1"
     = Some 3
     ∧ ∃ w2, update Py.plain_decimal the_cart (Py.VStr "p1") (Py.VInt 7)
               (saved the_cart (holding {[ "p1" := 3 ]} anonymous [] shop))
             = Returns 1%positive w2
             ∧ quantities the_cart w2 !! "p1" = Some 7).
Proof.
  split.
  - exact (proj1 (update_overwrites Py.plain_decimal the_cart (Py.VStr "p1")
                    (holding {[ "p1" := 3 ]} anonymous [] shop))
             (Py.VStr "7") 7 eq_refl).
  - exact (proj1 (proj2 (update_overwrites Py.plain_decimal the_cart
                           (Py.VStr "p1")
                           (holding {[ "p1" := 3 ]} anonymous [] shop)))
             3 (Py.VInt 9) (Py.VInt 7) 7
             (saved the_cart (holding {[ "p1" := 3 ]} anonymous [] shop))
             eq_refl eq_refl eq_refl).
Defined.

(** C4. [delete] always returns; afterwards the normalised id is not a key
    and the other entries are as before; when the id was not a key, the
    mapping (indeed every dict) is what it was. *)
Theorem delete_removes self product w :
  let p := _get_product_id product in
  let m := quantities self w in
  ∃ w', delete self product w = Returns () w'
        ∧ quantities self w' = base.delete p m
        ∧ quantities self w' !! p = None
        ∧ (m !! p = None → quantities self w' = m ∧ heap w' = heap w).
Proof.
  intros p m. rewrite delete_runs. fold p m.
  destruct (m !! p) as [old|] eqn:E; eexists; (split; [reflexivity|]).
  - rewrite quantities_saved, quantities_with.
    split; [done|]. split; [apply lookup_delete_eq | done].
  - rewrite quantities_saved, heap_saved. fold m.
    rewrite delete_id by done. done.
Qed.

Lemma delete_removes_witness :
  ∃ w', delete the_cart (Py.VStr "p9")
          (holding {[ "p1" := 3 ]} anonymous [] shop) = Returns () w'
        ∧ quantities the_cart w' = {[ "p1" := 3 ]}
        ∧ heap w' = {[ 1%positive := {[ "p1" := 3 ]} ]}.
Proof.
  destruct (delete_removes the_cart (Py.VStr "p9")
              (holding {[ "p1" := 3 ]} anonymous [] shop))
    as (w' & Hrun & _ & _ & Hsame).
  exists w'. split; [exact Hrun|]. exact (Hsame eq_refl).
Defined.

(** C5. The length of a cart is the number of its distinct keys: two carts
    with the same keys have the same length whatever the quantities, and a
    cart of two ids with quantity 10 each has length 2. *)
Theorem len_counts_keys self w :
  __len__ self w = Returns (Z.of_nat (size (dom (quantities self w)))) w
  ∧ (∀ self' w',
       dom (quantities self' w') = dom (quantities self w) →
       ∃ n, __len__ self w = Returns n w ∧ __len__ self' w' = Returns n w')
  ∧ __len__ the_cart (holding {[ "p1" := 10; "p2" := 10 ]} anonymous [] shop)
    = Returns 2 (holding {[ "p1" := 10; "p2" := 10 ]} anonymous [] shop).
Proof.
  assert (Hlen : ∀ s v,
    __len__ s v = Returns (Z.of_nat (size (dom (quantities s v)))) v).
  { intros s v. unfold __len__. by rewrite size_dom. }
  split; [apply Hlen|]. split; [|reflexivity].
  intros self' w' Hdom. eexists. split; [apply Hlen|].
  rewrite Hlen, Hdom. reflexivity.
Qed.

Lemma len_counts_keys_witness :
  ∃ n, __len__ the_cart (holding {[ "p1" := 1 ]} anonymous [] shop)
       = Returns n (holding {[ "p1" := 1 ]} anonymous [] shop)
       ∧ __len__ the_cart (holding {[ "p1" := 10 ]} anonymous [] [])
         = Returns n (holding {[ "p1" := 10 ]} anonymous [] []).
Proof.
  exact (proj1 (proj2 (len_counts_keys the_cart
                         (holding {[ "p1" := 1 ]} anonymous [] shop)))
           the_cart (holding {[ "p1" := 10 ]} anonymous [] []) eq_refl).
Defined.

(** ** Saving *)

(** A call that returns has ended in [_save], run on a world with the
    profiles and the user of the start. *)
Lemma run_returns_saved int_of_str self c w w' :
  run int_of_str self c w = Returns () w' →
  ∃ w0, w' = saved self w0
        ∧ profiles w0 = profiles w
        ∧ request_user w0 = request_user w.
Proof.
  destruct c as [product quantity|product quantity|product]; simpl.
  - rewrite add_runs.
    destruct (quantities self w !! _) as [old|];
      [|destruct (Py.int int_of_str quantity) as [e|n]];
      intros H; simplify_eq; eexists; (split; [reflexivity|done]).
  - unfold bind, ret. rewrite update_runs.
    destruct (Py.int int_of_str quantity) as [e|n];
      intros H; simplify_eq; eexists; (split; [reflexivity|done]).
  - rewrite delete_runs.
    destruct (quantities self w !! _) as [old|];
      intros H; simplify_eq; eexists; (split; [reflexivity|done]).
Qed.

Lemma run_raises int_of_str self c w e w' :
  run int_of_str self c w = Raises e w' →
  call_int int_of_str c = Some (inl e) ∧ w' = w.
Proof.
  destruct c as [product quantity|product quantity|product]; simpl.
  - rewrite add_runs.
    destruct (quantities self w !! _) as [old|];
      [|destruct (Py.int int_of_str quantity) as [e'|n]];
      intros H; by simplify_eq.
  - unfold bind, ret. rewrite update_runs.
    destruct (Py.int int_of_str quantity) as [e'|n];
      intros H; by simplify_eq.
  - rewrite delete_runs.
    destruct (quantities self w !! _) as [old|]; intros H; by simplify_eq.
Qed.

Lemma profile_update_rows uid c rows :
  Forall2
    (λ r r', user_id r' = user_id r
             ∧ old_cart r' = if decide (Some (user_id r) = uid)
                             then Some c else old_cart r)
    rows (profile_update uid c rows).
Proof.
  unfold profile_update. induction rows as [|r rows IH]; simpl.
  - constructor.
  - constructor; [|exact IH]. by destruct (decide (Some (user_id r) = uid)).
Qed.

(** C6. Every call of [add], [update] or [delete] that returns has set the
    session's [modified] flag and, when the user is authenticated, has
    replaced [old_cart] in each profile row of that user by the mapping the
    cart now has, whatever the row held, leaving the other rows alone; an
    anonymous user's call changes no row.  A call raises only where
    [int(quantity)] does, before anything has changed; so [delete] always
    returns, and [add] on an id already there returns having saved an
    unchanged mapping. *)
Theorem mutations_save int_of_str self c w :
  (∀ w', run int_of_str self c w = Returns () w' →
     session_modified w' = true
     ∧ (is_authenticated (request_user w) = true →
        Forall2
          (λ r r', user_id r' = user_id r
                   ∧ old_cart r' =
                       if decide (Some (user_id r) = user_pk (request_user w))
                       then Some (quantities self w') else old_cart r)
          (profiles w) (profiles w'))
     ∧ (is_authenticated (request_user w) = false →
        profiles w' = profiles w))
  ∧ (∀ e w', run int_of_str self c w = Raises e w' →
       call_int int_of_str c = Some (inl e) ∧ w' = w)
  ∧ (∀ product quantity old,
       c = Add product quantity →
       quantities self w !! _get_product_id product = Some old →
       run int_of_str self c w = Returns () (saved self w)
       ∧ quantities self (saved self w) = quantities self w)
  ∧ (∀ product, c = Delete product →
       ∃ w', run int_of_str self c w = Returns () w').
Proof.
  split; [|split; [|split]].
  - intros w' Hrun.
    destruct (run_returns_saved _ _ _ _ _ Hrun) as (w0 & -> & Hrows & Huser).
    split; [apply modified_saved|].
    rewrite profiles_saved, quantities_saved, Huser, Hrows.
    split; intros ->; [apply profile_update_rows | done].
  - intros e w'. apply run_raises.
  - intros product quantity old -> Hold. simpl.
    rewrite add_runs, Hold. split; [done | apply quantities_saved].
  - intros product ->. simpl. rewrite delete_runs.
    destruct (quantities self w !! _); eauto.
Qed.

Lemma mutations_save_witness :
  let w := holding {[ "p1" := 3 ]} (User true (Some 7))
             [Profile 7 (Some {[ "p5" := 1 ]}); Profile 8 None] shop in
  let w' := saved the_cart w in
  session_modified w' = true
  ∧ Forall2
      (λ r r', user_id r' = user_id r
               ∧ old_cart r' =
                   if decide (Some (user_id r) = Some 7)
                   then Some (quantities the_cart w') else old_cart r)
      (profiles w) (profiles w').
Proof.
  intros w w'.
  destruct (proj1 (mutations_save Py.plain_decimal the_cart
                     (Add (Py.VStr "p1") (Py.VStr "x")) w) w' eq_refl)
    as (Hflag & Hrows & _).
  split; [exact Hflag | exact (Hrows eq_refl)].
Defined.

(** ** The sign of quantities *)

Lemma nonneg_step int_of_str self c w :
  nonneg (quantities self w) →
  nonneg_call int_of_str c →
  nonneg (quantities self (final (run int_of_str self c w))).
Proof.
  unfold nonneg, nonneg_call. intros Hm Hc.
  destruct c as [product quantity|product quantity|product]; simpl in *.
  - rewrite add_runs.
    destruct (quantities self w !! _) as [old|]; simpl.
    { by rewrite quantities_saved. }
    destruct (Py.int int_of_str quantity) as [e|n]; simpl; [done|].
    rewrite quantities_saved, quantities_with.
    apply map_Forall_insert_2; [by apply Hc | done].
  - unfold bind. rewrite update_runs.
    destruct (Py.int int_of_str quantity) as [e|n]; simpl; [done|].
    rewrite quantities_saved, quantities_with.
    apply map_Forall_insert_2; [by apply Hc | done].
  - rewrite delete_runs.
    destruct (quantities self w !! _) as [old|]; simpl.
    + rewrite quantities_saved, quantities_with.
      by apply map_Forall_delete.
    + by rewrite quantities_saved.
Qed.

(** C7, as the code has it.  In every cart reached from an empty one by
    calls of [add], [update] and [delete] whose [int(quantity)] is not
    negative, no stored quantity is negative. *)
Theorem nonneg_invariant int_of_str self w :
  reachable_by int_of_str (nonneg_call int_of_str) self w →
  nonneg (quantities self w).
Proof.
  induction 1 as [w Hempty|c w w' _ IH Hc Hrun].
  - rewrite Hempty. apply map_Forall_empty.
  - pose proof (nonneg_step int_of_str self c w IH Hc) as Hstep.
    by rewrite Hrun in Hstep.
Qed.

Lemma nonneg_invariant_witness :
  nonneg
    (quantities the_cart
       (saved the_cart
          (with_quantities the_cart {[ "p1" := 3 ]}
             (holding ∅ anonymous [] shop)))).
Proof.
  apply (nonneg_invariant Py.plain_decimal).
  apply (reachable_call _ _ _ (Add (Py.VStr "p1") (Py.VStr "3"))
           (holding ∅ anonymous [] shop)).
  - by apply reachable_new.
  - intros n Hn. vm_compute in Hn. injection Hn as <-. lia.
  - reflexivity.
Defined.

(** C7, as the specification has it, fails: [update(p1, -1)] on a new
    cart returns and leaves the quantity -1 in the mapping. *)
Lemma update_stores_negative :
  let w := final (update Py.plain_decimal the_cart (Py.VStr "p1")
                    (Py.VInt (-1)) (holding ∅ anonymous [] shop)) in
  reachable Py.plain_decimal the_cart w
  ∧ quantities the_cart w !! "p1" = Some (-1)
  ∧ ¬ nonneg (quantities the_cart w).
Proof.
  intros w. split; [|split].
  - apply (reachable_call _ _ _ (Update (Py.VStr "p1") (Py.VInt (-1)))
             (holding ∅ anonymous [] shop)); [by apply reachable_new|done|].
    reflexivity.
  - reflexivity.
  - intros H. specialize (H "p1" (-1) eq_refl). simpl in H. lia.
Qed.

(** ** Construction *)

(** C8. Constructing a cart always returns, and afterwards the session has
    an entry under "cart" which is the very dict of the cart.  If the
    session had no such entry, that dict is a new one, empty, and the
    session differs from the old one by this entry alone; if it had one,
    the cart is that dict and nothing at all has changed. *)
Theorem init_binds_session_entry w :
  ∃ self w',
    __init__ w = Returns self w'
    ∧ session w' !! SESSION_KEY = Some (cart self)
    ∧ (session w !! SESSION_KEY = None →
       heap w !! cart self = None
       ∧ heap w' = <[cart self := ∅]> (heap w)
       ∧ quantities self w' = ∅
       ∧ session w' = <[SESSION_KEY := cart self]> (session w))
    ∧ (∀ d, session w !! SESSION_KEY = Some d → cart self = d ∧ w' = w).
Proof.
  unfold __init__.
  destruct (session w !! SESSION_KEY) as [d|] eqn:E.
  - exists (Bound d), w. rewrite E. split; [done|]. split; [done|].
    split; [done|]. intros d' [= <-]. done.
  - eexists _, _. split; [reflexivity|]. simpl.
    split; [apply lookup_insert_eq|]. split; [|done].
    intros _. split; [|split; [done|split; [|done]]].
    + apply not_elem_of_dom, is_fresh.
    + unfold quantities; simpl. apply lookup_total_insert_eq.
Qed.

Lemma init_binds_session_entry_witness :
  (∃ self w', __init__ (blank shop) = Returns self w'
              ∧ session w' !! SESSION_KEY = Some (cart self)
              ∧ quantities self w' = ∅)
  ∧ (∃ self w', __init__ (holding {[ "p1" := 3 ]} anonymous [] shop)
                = Returns self w'
                ∧ cart self = 1%positive
                ∧ w' = holding {[ "p1" := 3 ]} anonymous [] shop).
Proof.
  split.
  - destruct (init_binds_session_entry (blank shop))
      as (self & w' & Hrun & Hentry & Hnew & _).
    exists self, w'. split; [exact Hrun|]. split; [exact Hentry|].
    exact (proj1 (proj2 (proj2 (Hnew eq_refl)))).
  - destruct (init_binds_session_entry
                (holding {[ "p1" := 3 ]} anonymous [] shop))
      as (self & w' & Hrun & _ & _ & Hold).
    exists self, w'. split; [exact Hrun|]. exact (Hold 1%positive eq_refl).
Defined.

(** ** Normalising the product argument *)

Lemma get_product_id_obj x i :
  Py.getattr_id x = Some i →
  _get_product_id x = Py.str i
  ∧ _get_product_id (Py.VStr (Py.str i)) = Py.str i.
Proof. unfold _get_product_id. by intros ->. Qed.

Lemma get_product_id_bare v :
  Py.hasattr_id v = false →
  _get_product_id v = Py.str v
  ∧ _get_product_id (Py.VStr (Py.str v)) = Py.str v.
Proof.
  unfold _get_product_id, Py.hasattr_id.
  by destruct (Py.getattr_id v).
Qed.

(** C9. For each of [add], [update] and [delete]: a call with an object
    that has an [id] attribute is the call with [str] of that attribute,
    and a call with a value that has none is the call with [str] of the
    value.  Hence [add(x)] followed by [delete(str(x.id))] leaves no entry
    for the id of [x]. *)
Theorem product_argument_normalised int_of_str self :
  (∀ x i, Py.getattr_id x = Some i →
     (∀ quantity, add int_of_str self x quantity
                  = add int_of_str self (Py.VStr (Py.str i)) quantity)
     ∧ (∀ quantity, update int_of_str self x quantity
                    = update int_of_str self (Py.VStr (Py.str i)) quantity)
     ∧ delete self x = delete self (Py.VStr (Py.str i)))
  ∧ (∀ v, Py.hasattr_id v = false →
     (∀ quantity, add int_of_str self v quantity
                  = add int_of_str self (Py.VStr (Py.str v)) quantity)
     ∧ (∀ quantity, update int_of_str self v quantity
                    = update int_of_str self (Py.VStr (Py.str v)) quantity)
     ∧ delete self v = delete self (Py.VStr (Py.str v)))
  ∧ (∀ x i quantity w w1,
       Py.getattr_id x = Some i →
       add int_of_str self x quantity w = Returns () w1 →
       is_Some (quantities self w1 !! _get_product_id x)
       ∧ ∃ w2, delete self (Py.VStr (Py.str i)) w1 = Returns () w2
               ∧ quantities self w2 !! _get_product_id x = None).
Proof.
  split; [|split].
  - intros x i Hx. destruct (get_product_id_obj x i Hx) as [E1 E2].
    unfold add, update, delete. rewrite E1, E2. done.
  - intros v Hv. destruct (get_product_id_bare v Hv) as [E1 E2].
    unfold add, update, delete. rewrite E1, E2. done.
  - intros x i quantity w w1 Hx Hadd.
    destruct (get_product_id_obj x i Hx) as [E1 E2]. split.
    + rewrite add_runs in Hadd.
      destruct (quantities self w !! _get_product_id x) as [old|] eqn:E.
      * injection Hadd as <-. rewrite quantities_saved, E. eauto.
      * destruct (Py.int int_of_str quantity) as [e|n]; [done|].
        injection Hadd as <-. rewrite quantities_saved, quantities_with.
        rewrite lookup_insert_eq. eauto.
    + destruct (delete_removes self (Py.VStr (Py.str i)) w1)
        as (w2 & Hrun & _ & Hgone & _).
      exists w2. split; [done|]. by rewrite E1, <- E2.
Qed.

Lemma product_argument_normalised_witness :
  let x := Py.VObj "Shirt" (Some (Py.VInt 12)) in
  (add Py.plain_decimal the_cart x (Py.VInt 2)
   = add Py.plain_decimal the_cart (Py.VStr "12") (Py.VInt 2)
   ∧ delete the_cart (Py.VInt 12) = delete the_cart (Py.VStr "12"))
  ∧ ∃ w2, delete the_cart (Py.VStr "12")
            (saved the_cart
               (with_quantities the_cart {[ "12" := 2 ]}
                  (holding ∅ anonymous [] shop)))
          = Returns () w2
          ∧ quantities the_cart w2 !! "12" = None.
Proof.
  intros x. split; [split|].
  - exact (proj1 (proj1 (product_argument_normalised Py.plain_decimal the_cart)
                    x (Py.VInt 12) eq_refl) (Py.VInt 2)).
  - exact (proj2 (proj2 (proj1 (proj2 (product_argument_normalised
                                         Py.plain_decimal the_cart))
                           (Py.VInt 12) eq_refl))).
  - exact (proj2 (proj2 (proj2 (product_argument_normalised
                                  Py.plain_decimal the_cart))
                    x (Py.VInt 12) (Py.VInt 2) (holding ∅ anonymous [] shop)
                    _ eq_refl eq_refl)).
Defined.

(** ** The total *)

Section Total.

Variable id_matches : Py.value → string → bool.

Lemma id_in_dom (m : gmap string Z) (p : Product.t) :
  id_in id_matches (elements (dom m)) p
  = bool_decide (set_Exists (λ k, id_matches (Product.id p) k = true) (dom m)).
Proof.
  unfold id_in. apply eq_true_iff_eq.
  rewrite existsb_exists, bool_decide_eq_true. unfold set_Exists.
  split; intros (k & Hk & Hm); exists k; split; try done.
  - by apply elem_of_elements, list_elem_of_In.
  - by apply list_elem_of_In, elem_of_elements.
Qed.

Lemma get_products_matched self w :
  get_products id_matches self w
  = Returns (matched id_matches (quantities self w) (products w)) w.
Proof.
  unfold get_products, matched. f_equal.
  apply List.filter_ext. intros p. apply id_in_dom.
Qed.

(** The loop of [get_total_price], started at [acc]. *)
Lemma total_loop (m : gmap string Z) (ps : list Product.t) (acc : Qc) :
  fold_left
    (λ total product,
       (total + unit_price product
                * Qc_of_Z (default 0%Z (m !! Py.str (Product.id product))))%Qc)
    ps acc
  = (acc + sum_Qc (line_total m <$> ps))%Qc.
Proof.
  unfold sum_Qc. revert acc.
  induction ps as [|p ps IH]; intros acc;
    cbn [fold_left fmap list_fmap foldr].
  - by rewrite Qcplus_0_r.
  - rewrite IH. unfold line_total. by rewrite Qcplus_assoc.
Qed.

Lemma get_total_price_runs self w :
  get_total_price id_matches self w
  = Returns
      (sum_Qc (line_total (quantities self w)
                 <$> matched id_matches (quantities self w) (products w)))
      w.
Proof.
  unfold get_total_price, bind. rewrite get_products_matched.
  f_equal. rewrite total_loop. apply Qcplus_0_l.
Qed.

Lemma fmap_agree {A B} (f g : A → B) (l : list A) :
  (∀ x, x ∈ l → f x = g x) → f <$> l = g <$> l.
Proof.
  induction l as [|a l IH]; intros H; [done|].
  rewrite !fmap_cons. f_equal.
  - apply H, list_elem_of_here.
  - apply IH. intros x Hx. by apply H, list_elem_of_further.
Qed.

(** A key that no catalogue product is matched with, and that is the text
    of no catalogue id, can be put in without changing the sum. *)
Lemma unmatched_key_adds_nothing (m : gmap string Z) catalogue k n :
  (∀ p, p ∈ catalogue →
     id_matches (Product.id p) k = false ∧ Py.str (Product.id p) ≠ k) →
  sum_Qc (line_total (<[k := n]> m)
            <$> matched id_matches (<[k := n]> m) catalogue)
  = sum_Qc (line_total m <$> matched id_matches m catalogue).
Proof.
  intros Hk.
  assert (Hsame : matched id_matches (<[k := n]> m) catalogue
                  = matched id_matches m catalogue).
  { unfold matched. apply List.filter_ext_in. intros p Hp.
    apply list_elem_of_In in Hp. destruct (Hk p Hp) as [Hno _].
    apply bool_decide_ext. unfold set_Exists.
    split; intros (k' & Hin & Hm); exists k'; (split; [|done]).
    - rewrite dom_insert_L in Hin. apply elem_of_union in Hin as [Hin|Hin];
        [|done]. apply elem_of_singleton in Hin as ->. congruence.
    - rewrite dom_insert_L. apply elem_of_union. by right. }
  rewrite Hsame. f_equal. apply fmap_agree. intros p Hp.
  unfold matched in Hp. apply list_elem_of_In, List.filter_In in Hp as [Hp _].
  apply list_elem_of_In in Hp. destruct (Hk p Hp) as [_ Hne].
  unfold line_total. by rewrite lookup_insert_ne.
Qed.

End Total.

(** C3. For every cart and every catalogue, [get_total_price] returns the
    sum, over the catalogue products matched with a key of the cart, of the
    quantity found under [str] of the product's id, or 0 if there is none,
    times the product's [sale_price] if its [is_sale] is true and its
    [price] if [is_sale] is false or missing.  A key that matches no
    catalogue product adds nothing and raises nothing.  The cart
    p1: 2, p2: 3, p3: 1 over a catalogue with p1 at 10, not on sale, and p2
    at 20 with sale price 15, on sale, and no p3, totals 65. *)
Theorem total_price_sums id_matches self w :
  let m := quantities self w in
  let quantity_of (p : Product.t) : Z :=
    match m !! Py.str (Product.id p) with
    | Some n => n
    | None => 0
    end in
  let price_of (p : Product.t) : Qc :=
    match Product.is_sale p with
    | Some true => Product.sale_price p
    | Some false | None => Product.price p
    end in
  get_total_price id_matches self w
  = Returns
      (sum_Qc ((λ p, (price_of p * Qc_of_Z (quantity_of p))%Qc)
                 <$> matched id_matches m (products w)))
      w
  ∧ (∀ k n,
       (∀ p, p ∈ products w →
          id_matches (Product.id p) k = false ∧ Py.str (Product.id p) ≠ k) →
       ∃ total,
         get_total_price id_matches self w = Returns total w
         ∧ get_total_price id_matches self
             (with_quantities self (<[k := n]> m) w)
           = Returns total (with_quantities self (<[k := n]> m) w))
  ∧ get_total_price str_matches the_cart
      (holding {[ "p1" := 2; "p2" := 3; "p3" := 1 ]} anonymous [] shop)
    = Returns (Qc_of_Z 65)
        (holding {[ "p1" := 2; "p2" := 3; "p3" := 1 ]} anonymous [] shop).
Proof.
  intros m quantity_of price_of. split; [|split].
  - rewrite get_total_price_runs. fold m. do 2 f_equal.
    apply fmap_agree. intros p _.
    unfold line_total, unit_price, price_of, quantity_of.
    destruct (Product.is_sale p) as [[|]|];
      by destruct (m !! Py.str (Product.id p)).
  - intros k n Hk. eexists. split; [apply get_total_price_runs|].
    rewrite get_total_price_runs, quantities_with. fold m.
    change (products (with_quantities self (<[k:=n]> m) w)) with (products w).
    f_equal. by apply unmatched_key_adds_nothing.
  - rewrite get_total_price_runs. f_equal. apply Qc_is_canon. reflexivity.
Qed.

Lemma total_price_sums_witness :
  get_total_price str_matches the_cart
    (holding {[ "p1" := 2; "p2" := 3 ]} anonymous [] shop)
  = Returns
      (sum_Qc [ (Qc_of_Z 10 * Qc_of_Z 2)%Qc; (Qc_of_Z 15 * Qc_of_Z 3)%Qc ])
      (holding {[ "p1" := 2; "p2" := 3 ]} anonymous [] shop)
  ∧ ∃ total,
      get_total_price str_matches the_cart
        (holding {[ "p1" := 2; "p2" := 3 ]} anonymous [] shop)
      = Returns total (holding {[ "p1" := 2; "p2" := 3 ]} anonymous [] shop)
      ∧ get_total_price str_matches the_cart
          (with_quantities the_cart {[ "p1" := 2; "p2" := 3; "p3" := 1 ]}
             (holding {[ "p1" := 2; "p2" := 3 ]} anonymous [] shop))
        = Returns total
            (with_quantities the_cart {[ "p1" := 2; "p2" := 3; "p3" := 1 ]}
               (holding {[ "p1" := 2; "p2" := 3 ]} anonymous [] shop)).
Proof.
  split.
  - exact (proj1 (total_price_sums str_matches the_cart
                    (holding {[ "p1" := 2; "p2" := 3 ]} anonymous [] shop))).
  - refine (proj1 (proj2 (total_price_sums str_matches the_cart
                            (holding {[ "p1" := 2; "p2" := 3 ]} anonymous []
                               shop)))
              "p3" 1 _).
    intros p Hp. unfold shop in Hp. simpl in Hp.
    apply elem_of_cons in Hp as [->|Hp]; [by split|].
    apply elem_of_cons in Hp as [->|Hp]; [by split|].
    by apply elem_of_nil in Hp.
Defined.

(** ** A quantity of zero *)

(** C10. [update(product, 0)] returns and leaves the normalised id [p] a key
    with quantity 0: the length counts [p], every catalogue product matched
    with [p] is among [get_products()], and a product whose id reads [p]
    adds 0 to the total.  [delete] then takes the key away, and the length
    no longer counts it. *)
Theorem zero_is_not_deletion int_of_str id_matches self product w :
  let p := _get_product_id product in
  ∃ w',
    update int_of_str self product (Py.VInt 0) w = Returns (cart self) w'
    ∧ quantities self w' !! p = Some 0
    ∧ p ∈ dom (quantities self w')
    ∧ __len__ self w'
      = Returns (Z.of_nat (size ({[p]} ∪ dom (quantities self w)))) w'
    ∧ (∀ c, c ∈ products w → id_matches (Product.id c) p = true →
         ∃ found, get_products id_matches self w' = Returns found w'
                  ∧ c ∈ found)
    ∧ (∀ c, Py.str (Product.id c) = p →
         line_total (quantities self w') c = 0%Qc)
    ∧ (∃ w2,
         delete self product w' = Returns () w2
         ∧ quantities self w2 !! p = None
         ∧ (p ∉ dom (quantities self w2))
         ∧ __len__ self w2
           = Returns (Z.of_nat (size (dom (quantities self w) ∖ {[p]}))) w2).
Proof.
  intros p.
  destruct (proj1 (update_overwrites int_of_str self product w)
              (Py.VInt 0) 0 eq_refl) as (w' & Hrun & Hm & Hp).
  fold p in Hm, Hp.
  assert (Hprod : products w' = products w).
  { rewrite update_runs in Hrun. injection Hrun as <-.
    by rewrite products_saved. }
  exists w'. split; [exact Hrun|]. split; [exact Hp|].
  split; [apply elem_of_dom; eauto|].
  split; [unfold __len__; by rewrite <- size_dom, Hm, dom_insert_L|].
  split; [|split].
  - intros c Hc Hmatch. eexists. split; [apply get_products_matched|].
    unfold matched. apply list_elem_of_In, List.filter_In.
    split; [rewrite Hprod; by apply list_elem_of_In|].
    apply bool_decide_eq_true. exists p. split; [|done].
    apply elem_of_dom; eauto.
  - intros c Hc. unfold line_total. rewrite Hc, Hp. simpl.
    rewrite Z2Qc_inj_0. apply Qcmult_0_r.
  - destruct (delete_removes self product w')
      as (w'' & Hdel & Hm'' & Hgone & _).
    fold p in Hm'', Hgone.
    exists w''. split; [exact Hdel|]. split; [exact Hgone|].
    split; [by apply not_elem_of_dom|].
    unfold __len__. rewrite <- size_dom, Hm'', Hm, dom_delete_L, dom_insert_L.
    do 3 f_equal.
    by rewrite difference_union_distr_l_L, difference_diag_L, (left_id_L ∅ (∪)).
Qed.

Lemma zero_is_not_deletion_witness :
  let w := holding {[ "p1" := 2; "p2" := 3 ]} anonymous [] shop in
  ∃ w',
    update Py.plain_decimal the_cart (Py.VStr "p2") (Py.VInt 0) w
    = Returns 1%positive w'
    ∧ quantities the_cart w' !! "p2" = Some 0
    ∧ __len__ the_cart w' = Returns 2 w'
    ∧ ∃ found, get_products str_matches the_cart w' = Returns found w'
               ∧ Product.Make (Py.VStr "p2") (Qc_of_Z 20) (Qc_of_Z 15)
                   (Some true) ∈ found.
Proof.
  intros w.
  destruct (zero_is_not_deletion Py.plain_decimal str_matches the_cart
              (Py.VStr "p2") w)
    as (w' & Hrun & Hzero & _ & Hlen & Hfound & _).
  exists w'. split; [exact Hrun|]. split; [exact Hzero|].
  split; [exact Hlen|].
  apply Hfound; [|reflexivity].
  apply list_elem_of_further, list_elem_of_here.
Defined.

(** ** How saves and calls compose *)

Lemma profile_update_twice uid c c' rows :
  profile_update uid c' (profile_update uid c rows) = profile_update uid c' rows.
Proof.
  unfold profile_update. induction rows as [|r rows IH]; [done|].
  rewrite !fmap_cons, IH. f_equal.
  destruct (decide (Some (user_id r) = uid)) as [E|E]; simpl.
  - by rewrite decide_True.
  - by rewrite decide_False.
Qed.

Lemma profile_update_length uid c rows :
  length (profile_update uid c rows) = length rows.
Proof. unfold profile_update. apply length_fmap. Qed.

(** Without a row of the user, the update finds nothing to write to. *)
Lemma profile_update_no_row uid c rows :
  Forall (λ r, Some (user_id r) ≠ uid) rows →
  profile_update uid c rows = rows.
Proof.
  unfold profile_update. induction 1 as [|r rows Hr _ IH]; [done|].
  rewrite fmap_cons, IH. by rewrite decide_False.
Qed.

(** A second save finds everything as the first one left it. *)
Lemma saved_idem self w : saved self (saved self w) = saved self w.
Proof.
  destruct w as [h s b u rows cat].
  unfold saved, _save, bind, modify, quantities; simpl.
  destruct (is_authenticated u) eqn:E; simpl; rewrite ?E; simpl; [|done].
  unfold set_profiles; simpl. by rewrite profile_update_twice.
Qed.

(** Only the last assignment to the dict, and the last save, are seen. *)
Lemma with_quantities_twice self m m' w :
  with_quantities self m' (with_quantities self m w) = with_quantities self m' w.
Proof.
  unfold with_quantities, set_heap; simpl. by rewrite insert_insert_eq.
Qed.

Lemma saved_with_saved self m w :
  saved self (with_quantities self m (saved self w))
  = saved self (with_quantities self m w).
Proof.
  destruct w as [h s b u rows cat].
  unfold saved, _save, bind, modify, quantities, with_quantities; simpl.
  destruct (is_authenticated u) eqn:E; simpl; rewrite ?E; simpl; [|done].
  unfold set_profiles, set_heap; simpl.
  by rewrite profile_update_twice, !lookup_total_insert_eq.
Qed.

(** Assigning to the dict what it holds changes nothing. *)
Lemma with_quantities_same self w :
  is_Some (heap w !! cart self) →
  with_quantities self (quantities self w) w = w.
Proof.
  intros [m Hm]. destruct w as [h s b u rows cat]; simpl in *.
  unfold with_quantities, quantities, set_heap; simpl.
  rewrite (lookup_total_correct _ _ _ Hm). by rewrite insert_id.
Qed.

Lemma heap_with self m w : heap (with_quantities self m w) !! cart self = Some m.
Proof. unfold with_quantities; simpl. apply lookup_insert_eq. Qed.

(** The world a call that returns ends in: the dict assigned its final
    mapping once, and one save. *)
Lemma run_returns_settled int_of_str self c w w' :
  run int_of_str self c w = Returns () w' →
  is_Some (heap w !! cart self) →
  w' = saved self (with_quantities self (quantities self w') w).
Proof.
  intros Hrun Hdict.
  assert (Hnoop : saved self w
    = saved self (with_quantities self (quantities self (saved self w)) w)).
  { by rewrite quantities_saved, with_quantities_same. }
  destruct c as [product quantity|product quantity|product]; simpl in Hrun.
  - rewrite add_runs in Hrun.
    destruct (quantities self w !! _) as [old|];
      [|destruct (Py.int int_of_str quantity) as [e|n]]; simplify_eq; [done|].
    by rewrite quantities_saved, quantities_with.
  - unfold bind, ret in Hrun. rewrite update_runs in Hrun.
    destruct (Py.int int_of_str quantity) as [e|n]; simplify_eq.
    by rewrite quantities_saved, quantities_with.
  - rewrite delete_runs in Hrun.
    destruct (quantities self w !! _) as [old|]; simplify_eq; [|done].
    by rewrite quantities_saved, quantities_with.
Qed.

Lemma quantities_of_heap self w m :
  heap w !! cart self = Some m → quantities self w = m.
Proof. intros H. unfold quantities. by apply lookup_total_correct. Qed.

(** A call on a cart whose dict holds [m], read as a change of [m]. *)
Lemma run_runs int_of_str self c w m :
  heap w !! cart self = Some m →
  run int_of_str self c w =
    match apply_call int_of_str c m with
    | inr m' => Returns () (saved self (with_quantities self m' w))
    | inl e => Raises e w
    end.
Proof.
  intros Hm. pose proof (quantities_of_heap _ _ _ Hm) as Hq.
  assert (Hsame : with_quantities self m w = w).
  { rewrite <- Hq. apply with_quantities_same. rewrite Hm. eauto. }
  destruct c as [product quantity|product quantity|product]; simpl.
  - rewrite add_runs, Hq.
    destruct (m !! _get_product_id product) as [old|]; [by rewrite Hsame|].
    by destruct (Py.int int_of_str quantity).
  - unfold bind, ret. rewrite update_runs, Hq.
    by destruct (Py.int int_of_str quantity).
  - rewrite delete_runs, Hq.
    destruct (m !! _get_product_id product) as [old|] eqn:E; [done|].
    by rewrite delete_id, Hsame.
Qed.

(** The world a returning call leaves is that of one assignment and one
    save, so a further call sees the dict in place. *)
Lemma run_next int_of_str self c m w :
  run int_of_str self c (saved self (with_quantities self m w)) =
    match apply_call int_of_str c m with
    | inr m' => Returns () (saved self (with_quantities self m' w))
    | inl e => Raises e (saved self (with_quantities self m w))
    end.
Proof.
  rewrite (run_runs _ _ _ _ m) by (rewrite heap_saved; apply heap_with).
  destruct (apply_call int_of_str c m) as [e|m'']; [done|].
  by rewrite saved_with_saved, with_quantities_twice.
Qed.

(** A call that returns has at most assigned to the cart's dict, and then
    saved. *)
Lemma run_returns_with int_of_str self c w w' :
  run int_of_str self c w = Returns () w' →
  ∃ w0, w' = saved self w0 ∧ (w0 = w ∨ ∃ m, w0 = with_quantities self m w).
Proof.
  destruct c as [product quantity|product quantity|product]; simpl.
  - rewrite add_runs.
    destruct (quantities self w !! _) as [old|];
      [|destruct (Py.int int_of_str quantity) as [e|n]];
      intros H; simplify_eq; eauto.
  - unfold bind, ret. rewrite update_runs.
    destruct (Py.int int_of_str quantity) as [e|n];
      intros H; simplify_eq; eauto.
  - rewrite delete_runs.
    destruct (quantities self w !! _) as [old|];
      intros H; simplify_eq; eauto.
Qed.

Lemma init_of_bound self w :
  session w !! SESSION_KEY = Some (cart self) → __init__ w = Returns self w.
Proof. unfold __init__. intros ->. by destruct self. Qed.

Lemma init_bound w self w' :
  __init__ w = Returns self w' → session w' !! SESSION_KEY = Some (cart self).
Proof.
  unfold __init__. destruct (session w !! SESSION_KEY) as [d|] eqn:E.
  - intros H. by simplify_eq.
  - unfold bind, new_dict, session_setitem, modify, ret. intros H.
    simplify_eq. simpl. apply lookup_insert_eq.
Qed.

(** A call changes the entry of its own product only. *)
Lemma run_other_keys int_of_str self c w w' k :
  run int_of_str self c w = Returns () w' →
  k ≠ _get_product_id (call_product c) →
  quantities self w' !! k = quantities self w !! k.
Proof.
  intros Hrun Hk.
  destruct c as [product quantity|product quantity|product];
    simpl in Hrun, Hk.
  - rewrite add_runs in Hrun.
    destruct (quantities self w !! _get_product_id product) as [old|];
      [|destruct (Py.int int_of_str quantity) as [e|n]]; simplify_eq.
    + by rewrite quantities_saved.
    + rewrite quantities_saved, quantities_with. by apply lookup_insert_ne.
  - unfold bind, ret in Hrun. rewrite update_runs in Hrun.
    destruct (Py.int int_of_str quantity) as [e|n]; simplify_eq.
    rewrite quantities_saved, quantities_with. by apply lookup_insert_ne.
  - rewrite delete_runs in Hrun.
    destruct (quantities self w !! _get_product_id product) as [old|];
      simplify_eq.
    + rewrite quantities_saved, quantities_with. by apply lookup_delete_ne.
    + by rewrite quantities_saved.
Qed.

(** ** What a call leaves alone *)

(** X1. A call of [add], [update] or [delete] that returns has changed
    neither an entry of the session, nor the catalogue, nor the user, nor
    the number of profile rows, nor any dict other than the cart's own,
    nor, in the cart's dict, the entry of any id other than the normalised
    id of its product. *)
Theorem calls_touch_only_the_cart int_of_str self c w w' :
  run int_of_str self c w = Returns () w' →
  session w' = session w
  ∧ products w' = products w
  ∧ request_user w' = request_user w
  ∧ length (profiles w') = length (profiles w)
  ∧ (∀ d, d ≠ cart self → heap w' !! d = heap w !! d)
  ∧ (∀ k, k ≠ _get_product_id (call_product c) →
       quantities self w' !! k = quantities self w !! k).
Proof.
  intros Hrun.
  assert (Hkeys : ∀ k, k ≠ _get_product_id (call_product c) →
            quantities self w' !! k = quantities self w !! k).
  { intros k. by apply (run_other_keys int_of_str). }
  revert Hkeys.
  destruct (run_returns_with _ _ _ _ _ Hrun) as (w0 & -> & Hw0).
  intros Hkeys.
  rewrite session_saved, products_saved, user_saved, heap_saved,
    profiles_saved.
  assert (Hlen : ∀ v, length (if is_authenticated (request_user v)
      then profile_update (user_pk (request_user v)) (quantities self v)
             (profiles v)
      else profiles v) = length (profiles v)).
  { intros v. destruct (is_authenticated _); [|done].
    apply profile_update_length. }
  rewrite Hlen. destruct Hw0 as [->|[m ->]]; [done|].
  repeat split; [|done]. intros d Hd. simpl. by apply lookup_insert_ne.
Qed.

Lemma calls_touch_only_the_cart_witness :
  let w := World {[ 1%positive := ∅; 2%positive := {[ "x" := 1 ]} ]}
             {[ SESSION_KEY := 1%positive; "wishlist" := 2%positive ]}
             false anonymous [] shop in
  let w' := saved the_cart (with_quantities the_cart {[ "p1" := 3 ]} w) in
  session w' = session w
  ∧ heap w' !! 2%positive = Some {[ "x" := 1 ]}.
Proof.
  intros w w'.
  destruct (calls_touch_only_the_cart Py.plain_decimal the_cart
              (Add (Py.VStr "p1") (Py.VInt 3)) w w' eq_refl)
    as (Hs & _ & _ & _ & Hh & _).
  split; [exact Hs|]. exact (Hh 2%positive ltac:(discriminate)).
Defined.

(** X2. A cart constructed again on the same request, at once or after a
    call of the first cart has returned, is bound to the same dict, and
    constructing it changes nothing; the dict [get_quantities] returns is
    the one the session holds under "cart". *)
Theorem later_cart_is_same_dict int_of_str w self w1 :
  __init__ w = Returns self w1 →
  __init__ w1 = Returns self w1
  ∧ (∀ c w2, run int_of_str self c w1 = Returns () w2 →
       __init__ w2 = Returns self w2
       ∧ ∃ d, get_quantities self w2 = Returns d w2
              ∧ session w2 !! SESSION_KEY = Some d).
Proof.
  intros Hinit. pose proof (init_bound _ _ _ Hinit) as Hb.
  split; [by apply init_of_bound|].
  intros c w2 Hrun.
  destruct (run_returns_with _ _ _ _ _ Hrun) as (w0 & -> & Hw0).
  assert (Hs : session (saved self w0) !! SESSION_KEY = Some (cart self)).
  { rewrite session_saved. by destruct Hw0 as [->|[m ->]]. }
  split; [by apply init_of_bound|]. by exists (cart self).
Qed.

Lemma later_cart_is_same_dict_witness :
  __init__ (holding {[ "p1" := 3 ]} anonymous [] shop)
  = Returns the_cart (holding {[ "p1" := 3 ]} anonymous [] shop)
  ∧ __init__ (saved the_cart
                (with_quantities the_cart ∅
                   (holding {[ "p1" := 3 ]} anonymous [] shop)))
    = Returns the_cart
        (saved the_cart
           (with_quantities the_cart ∅
              (holding {[ "p1" := 3 ]} anonymous [] shop))).
Proof.
  destruct (later_cart_is_same_dict Py.plain_decimal
              (holding {[ "p1" := 3 ]} anonymous [] shop) the_cart
              (holding {[ "p1" := 3 ]} anonymous [] shop) eq_refl)
    as [H1 H2].
  split; [exact H1|].
  exact (proj1 (H2 (Delete (Py.VStr "p1")) _ eq_refl)).
Defined.

(** ** Repeating, undoing and reordering calls *)

(** The mapping a call has made is left as it is by the same call. *)
Lemma apply_call_again int_of_str c m m' :
  apply_call int_of_str c m = inr m' →
  apply_call int_of_str c m' = inr m'.
Proof.
  destruct c as [product quantity|product quantity|product]; simpl.
  - destruct (m !! _get_product_id product) as [old|] eqn:E.
    + intros H. simplify_eq. by rewrite E.
    + destruct (Py.int int_of_str quantity) as [e|n]; intros H; simplify_eq.
      by rewrite lookup_insert_eq.
  - destruct (Py.int int_of_str quantity) as [e|n]; intros H; simplify_eq.
    by rewrite insert_insert_eq.
  - intros H. simplify_eq. by rewrite delete_delete_eq.
Qed.

Lemma apply_add_present int_of_str product quantity quantity' m m' :
  apply_call int_of_str (Add product quantity) m = inr m' →
  apply_call int_of_str (Add product quantity') m' = inr m'.
Proof.
  simpl. destruct (m !! _get_product_id product) as [old|] eqn:E.
  - intros H. simplify_eq. by rewrite E.
  - destruct (Py.int int_of_str quantity) as [e|n]; intros H; simplify_eq.
    by rewrite lookup_insert_eq.
Qed.

(** X3. A call that has returned changes nothing at all when it is made a
    second time: not the mapping, not the flag, not a profile row.  After
    [add] has returned, an [add] of the same product returns and changes
    nothing whatever its quantity, even one [int] rejects. *)
Theorem repeated_call_changes_nothing int_of_str self c w m w1 :
  heap w !! cart self = Some m →
  run int_of_str self c w = Returns () w1 →
  run int_of_str self c w1 = Returns () w1
  ∧ (∀ product quantity quantity',
       c = Add product quantity →
       run int_of_str self (Add product quantity') w1 = Returns () w1).
Proof.
  intros Hm Hrun. rewrite (run_runs _ _ _ _ _ Hm) in Hrun.
  destruct (apply_call int_of_str c m) as [e|m'] eqn:E; [done|].
  simplify_eq. split.
  - by rewrite run_next, (apply_call_again _ _ _ _ E).
  - intros product quantity quantity' ->.
    by rewrite run_next, (apply_add_present _ _ _ quantity' _ _ E).
Qed.

Lemma repeated_call_changes_nothing_witness :
  let w1 := saved the_cart
              (with_quantities the_cart {[ "p1" := 3 ]}
                 (holding ∅ (User true (Some 7)) [Profile 7 None] shop)) in
  run Py.plain_decimal the_cart (Update (Py.VStr "p1") (Py.VInt 3)) w1
  = Returns () w1.
Proof.
  intros w1.
  exact (proj1 (repeated_call_changes_nothing Py.plain_decimal the_cart
                  (Update (Py.VStr "p1") (Py.VInt 3))
                  (holding ∅ (User true (Some 7)) [Profile 7 None] shop)
                  ∅ w1 eq_refl eq_refl)).
Defined.

(** X4. [add] and [update] on an id that is not a key, and [delete] on one
    that is, are undone by a [delete], respectively an [add] or [update]
    of the old quantity: the world is then the one a save alone leaves. *)
Theorem delete_undoes_insertion int_of_str self product quantity w m :
  let p := _get_product_id product in
  heap w !! cart self = Some m →
  (m !! p = None →
   (∀ w1, add int_of_str self product quantity w = Returns () w1 →
          delete self product w1 = Returns () (saved self w))
   ∧ (∀ w1, update int_of_str self product quantity w
            = Returns (cart self) w1 →
            delete self product w1 = Returns () (saved self w)))
  ∧ (∀ w1, Py.int int_of_str quantity = inr (default 0 (m !! p)) →
           is_Some (m !! p) →
           delete self product w = Returns () w1 →
           add int_of_str self product quantity w1 = Returns () (saved self w))
  ∧ quantities self (saved self w) = m.
Proof.
  intros p Hm. pose proof (quantities_of_heap _ _ _ Hm) as Hq.
  assert (Hsame : with_quantities self m w = w).
  { rewrite <- Hq. apply with_quantities_same. rewrite Hm. eauto. }
  split; [|split; [|by rewrite quantities_saved]].
  - intros Hnone.
    assert (Hdel : ∀ n,
      delete self product
        (saved self (with_quantities self (<[p := n]> m) w))
      = Returns () (saved self w)).
    { intros n.
      pose proof (run_next int_of_str self (Delete product) (<[p := n]> m) w)
        as H. simpl in H. fold p in H. rewrite H.
      by rewrite delete_insert_id, Hsame. }
    split; intros w1.
    + rewrite add_runs, Hq. fold p. rewrite Hnone.
      destruct (Py.int int_of_str quantity) as [e|n]; intros H; simplify_eq.
      apply Hdel.
    + rewrite update_runs, Hq. fold p.
      destruct (Py.int int_of_str quantity) as [e|n]; intros H; simplify_eq.
      apply Hdel.
  - intros w1 Hint [old Hold]. rewrite delete_runs, Hq. fold p.
    rewrite Hold in *. simpl in Hint. intros Hw1. injection Hw1 as <-.
    pose proof (run_next int_of_str self (Add product quantity)
                  (base.delete p m) w) as H.
    simpl in H. fold p in H. rewrite lookup_delete_eq, Hint in H.
    rewrite H. by rewrite insert_delete_id, Hsame.
Qed.

Lemma delete_undoes_insertion_witness :
  let w := holding {[ "p1" := 3 ]} anonymous [] shop in
  delete the_cart (Py.VStr "p2")
    (saved the_cart
       (with_quantities the_cart {[ "p1" := 3; "p2" := 5 ]} w))
  = Returns () (saved the_cart w).
Proof.
  intros w.
  exact (proj1 (proj1 (delete_undoes_insertion Py.plain_decimal the_cart
                         (Py.VStr "p2") (Py.VInt 5) w {[ "p1" := 3 ]}
                         eq_refl) eq_refl) _ eq_refl).
Defined.

Lemma apply_call_commute int_of_str c1 c2 m m1 m2 :
  _get_product_id (call_product c1) ≠ _get_product_id (call_product c2) →
  apply_call int_of_str c1 m = inr m1 →
  apply_call int_of_str c2 m = inr m2 →
  ∃ m', apply_call int_of_str c2 m1 = inr m'
        ∧ apply_call int_of_str c1 m2 = inr m'.
Proof.
  intros Hne H1 H2.
  destruct c1 as [x qx|x qx|x], c2 as [y qy|y qy|y]; simpl in *;
    repeat match goal with
    | H : context [match ?m !! ?k with _ => _ end] |- _ =>
        destruct (m !! k) eqn:?
    | H : context [match Py.int ?f ?q with _ => _ end] |- _ =>
        destruct (Py.int f q) eqn:?
    end; simplify_eq;
    rewrite ?lookup_insert_ne, ?lookup_delete_ne by done;
    repeat match goal with
    | H : ?a = _ |- context [?a] => rewrite H
    end;
    eexists; (split; [reflexivity|]); f_equal;
    try done.
  all: try (by rewrite insert_insert_ne).
  all: try (by rewrite delete_insert_ne).
  all: try (by rewrite delete_delete).
Qed.

(** X5. Two calls on products with different normalised ids that both
    return can be made in either order: the second returns after the first
    in both orders, and the two orders end in the same world. *)
Theorem calls_on_distinct_ids_commute int_of_str self c1 c2 w m w1 w2 :
  heap w !! cart self = Some m →
  _get_product_id (call_product c1) ≠ _get_product_id (call_product c2) →
  run int_of_str self c1 w = Returns () w1 →
  run int_of_str self c2 w = Returns () w2 →
  ∃ w', run int_of_str self c2 w1 = Returns () w'
        ∧ run int_of_str self c1 w2 = Returns () w'.
Proof.
  intros Hm Hne Hrun1 Hrun2.
  rewrite (run_runs _ _ _ _ _ Hm) in Hrun1.
  rewrite (run_runs _ _ _ _ _ Hm) in Hrun2.
  destruct (apply_call int_of_str c1 m) as [e1|m1] eqn:E1; [done|].
  destruct (apply_call int_of_str c2 m) as [e2|m2] eqn:E2; [done|].
  injection Hrun1 as <-. injection Hrun2 as <-.
  destruct (apply_call_commute _ _ _ _ _ _ Hne E1 E2) as (m' & H1 & H2).
  exists (saved self (with_quantities self m' w)).
  by rewrite !run_next, H1, H2.
Qed.

Lemma calls_on_distinct_ids_commute_witness :
  let w := holding {[ "p1" := 3 ]} anonymous [] shop in
  ∃ w', run Py.plain_decimal the_cart (Add (Py.VStr "p2") (Py.VInt 4))
          (saved the_cart (with_quantities the_cart ∅ w)) = Returns () w'
        ∧ run Py.plain_decimal the_cart (Delete (Py.VStr "p1"))
            (saved the_cart
               (with_quantities the_cart {[ "p1" := 3; "p2" := 4 ]} w))
          = Returns () w'.
Proof.
  intros w.
  refine (calls_on_distinct_ids_commute Py.plain_decimal the_cart
            (Delete (Py.VStr "p1")) (Add (Py.VStr "p2") (Py.VInt 4))
            w {[ "p1" := 3 ]} _ _ eq_refl _ eq_refl eq_refl).
  simpl. discriminate.
Defined.

(** X6. After any call on a product that has returned, an [update] or a
    [delete] of the same product does what it would have done without
    that call: only the last write to an id counts. *)
Theorem later_write_hides_earlier_call int_of_str self c product w m w1 :
  heap w !! cart self = Some m →
  _get_product_id (call_product c) = _get_product_id product →
  run int_of_str self c w = Returns () w1 →
  (∀ quantity n, Py.int int_of_str quantity = inr n →
     update int_of_str self product quantity w1
     = update int_of_str self product quantity w)
  ∧ delete self product w1 = delete self product w.
Proof.
  intros Hm Hp Hrun. rewrite (run_runs _ _ _ _ _ Hm) in Hrun.
  pose proof (quantities_of_heap _ _ _ Hm) as Hq.
  destruct (apply_call int_of_str c m) as [e|m1] eqn:E; [done|].
  injection Hrun as <-.
  set (p := _get_product_id product) in *.
  assert (Hins : ∀ n, <[p := n]> m1 = <[p := n]> m).
  { intros n.
    destruct c as [x q|x q|x]; simpl in E, Hp; rewrite Hp in E.
    - destruct (m !! p); [by simplify_eq|].
      destruct (Py.int int_of_str q); simplify_eq.
      apply insert_insert_eq.
    - destruct (Py.int int_of_str q); simplify_eq. apply insert_insert_eq.
    - simplify_eq. apply insert_delete_eq. }
  assert (Hdel : base.delete p m1 = base.delete p m).
  { rewrite <- (delete_insert_eq m1 p 0), <- (delete_insert_eq m p 0).
    by rewrite Hins. }
  split.
  - intros quantity n Hn. rewrite !update_runs, Hn.
    rewrite quantities_saved, quantities_with, Hq. fold p.
    by rewrite saved_with_saved, with_quantities_twice, Hins.
  - pose proof (run_next int_of_str self (Delete product) m1 w) as H1.
    pose proof (run_runs int_of_str self (Delete product) w m Hm) as H2.
    simpl in H1, H2. fold p in H1, H2. by rewrite H1, H2, Hdel.
Qed.

Lemma later_write_hides_earlier_call_witness :
  let w := holding {[ "p1" := 3 ]} anonymous [] shop in
  update Py.plain_decimal the_cart (Py.VInt 12) (Py.VStr "2")
    (saved the_cart
       (with_quantities the_cart {[ "p1" := 3; "12" := 5 ]} w))
  = update Py.plain_decimal the_cart (Py.VInt 12) (Py.VStr "2") w.
Proof.
  intros w.
  exact (proj1 (later_write_hides_earlier_call Py.plain_decimal the_cart
                  (Add (Py.VStr "12") (Py.VInt 5)) (Py.VInt 12) w
                  {[ "p1" := 3 ]} _ eq_refl eq_refl eq_refl)
           (Py.VStr "2") 2 eq_refl).
Defined.

(** A series of calls made after a save ends after a save. *)
Lemma run_all_next int_of_str self cs : ∀ m w w',
  run_all int_of_str self cs (saved self (with_quantities self m w))
  = Returns () w' →
  ∃ m', w' = saved self (with_quantities self m' w).
Proof.
  induction cs as [|c cs IH]; intros m w w'; simpl.
  - unfold ret. intros H. simplify_eq. eauto.
  - unfold bind. rewrite run_next.
    destruct (apply_call int_of_str c m) as [e|m1]; [done|]. apply IH.
Qed.

Lemma run_all_settled int_of_str self cs w m w' :
  heap w !! cart self = Some m →
  cs ≠ [] →
  run_all int_of_str self cs w = Returns () w' →
  w' = saved self (with_quantities self (quantities self w') w).
Proof.
  intros Hm Hcs. destruct cs as [|c cs]; [done|]. simpl. unfold bind.
  rewrite (run_runs _ _ _ _ _ Hm).
  destruct (apply_call int_of_str c m) as [e|m1]; [done|]. intros Hrun.
  destruct (run_all_next _ _ _ _ _ _ Hrun) as [m' ->].
  by rewrite quantities_saved, quantities_with.
Qed.

(** X7. The world at the end of a series of calls that all returned
    depends on the world at its start and on the final mapping only: two
    series from the same world that end with the same mapping end in the
    same world, profile rows and flag included. *)
Theorem history_is_forgotten int_of_str self cs cs' w m w1 w2 :
  heap w !! cart self = Some m →
  cs ≠ [] → cs' ≠ [] →
  run_all int_of_str self cs w = Returns () w1 →
  run_all int_of_str self cs' w = Returns () w2 →
  quantities self w1 = quantities self w2 →
  w1 = w2.
Proof.
  intros Hm Hcs Hcs' H1 H2 Hq.
  rewrite (run_all_settled _ _ _ _ _ _ Hm Hcs H1).
  rewrite (run_all_settled _ _ _ _ _ _ Hm Hcs' H2).
  by rewrite Hq.
Qed.

Lemma history_is_forgotten_witness :
  let w := holding {[ "p1" := 3 ]} (User true (Some 7)) [Profile 7 None]
             shop in
  final (run_all Py.plain_decimal the_cart
           [Add (Py.VStr "p2") (Py.VInt 1); Update (Py.VStr "p1") (Py.VInt 4);
            Delete (Py.VStr "p2")] w)
  = final (run_all Py.plain_decimal the_cart
             [Update (Py.VStr "p1") (Py.VStr "4")] w).
Proof.
  intros w.
  refine (history_is_forgotten Py.plain_decimal the_cart
            [Add (Py.VStr "p2") (Py.VInt 1); Update (Py.VStr "p1") (Py.VInt 4);
             Delete (Py.VStr "p2")]
            [Update (Py.VStr "p1") (Py.VStr "4")]
            w {[ "p1" := 3 ]} _ _ eq_refl _ _ eq_refl eq_refl eq_refl);
    discriminate.
Defined.

(** ** Counting, defaults and errors *)

(** X8. A call that returns changes the length of the cart by one at
    most: [add] and [update] raise it by one when the id was not a key,
    [delete] lowers it by one when it was, and otherwise it stays. *)
Theorem len_changes_by_one int_of_str self c w w' :
  let p := _get_product_id (call_product c) in
  let n := Z.of_nat (size (quantities self w)) in
  run int_of_str self c w = Returns () w' →
  __len__ self w'
  = Returns
      match c, quantities self w !! p with
      | Delete _, Some _ => n - 1
      | Delete _, None => n
      | _, Some _ => n
      | _, None => n + 1
      end w'.
Proof.
  intros p n Hrun. unfold __len__. f_equal. subst n.
  destruct c as [product quantity|product quantity|product];
    simpl in Hrun, p; subst p.
  - rewrite add_runs in Hrun.
    destruct (quantities self w !! _) as [old|] eqn:E;
      [|destruct (Py.int int_of_str quantity) as [e|k]]; simplify_eq.
    + by rewrite quantities_saved.
    + rewrite quantities_saved, quantities_with, map_size_insert_None by done.
      lia.
  - unfold bind, ret in Hrun. rewrite update_runs in Hrun.
    destruct (Py.int int_of_str quantity) as [e|k]; simplify_eq.
    rewrite quantities_saved, quantities_with, map_size_insert.
    destruct (quantities self w !! _); simpl; lia.
  - rewrite delete_runs in Hrun.
    destruct (quantities self w !! _) as [old|] eqn:E; simplify_eq.
    + rewrite quantities_saved, quantities_with.
      rewrite <- (insert_delete_id (quantities self w) _ _ E) at 2.
      rewrite map_size_insert_None by apply lookup_delete_eq. lia.
    + by rewrite quantities_saved.
Qed.

Lemma len_changes_by_one_witness :
  let w := holding {[ "p1" := 3; "p2" := 1 ]} anonymous [] shop in
  let w' := saved the_cart (with_quantities the_cart {[ "p2" := 1 ]} w) in
  __len__ the_cart w' = Returns (2 - 1) w'.
Proof.
  intros w w'.
  exact (len_changes_by_one Py.plain_decimal the_cart
           (Delete (Py.VStr "p1")) w w' eq_refl).
Defined.

(** X9. [add(product)], with the default quantity, always returns: an id
    that is not a key gets the quantity 1, an id that is keeps the
    quantity it has. *)
Theorem add_default_quantity int_of_str self product w :
  let p := _get_product_id product in
  ∃ w', add_one int_of_str self product w = Returns () w'
        ∧ quantities self w' !! p = Some (default 1 (quantities self w !! p)).
Proof.
  intros p. unfold add_one. rewrite add_runs. fold p. simpl.
  destruct (quantities self w !! p) as [old|] eqn:E;
    eexists; (split; [reflexivity|]).
  - by rewrite quantities_saved.
  - rewrite quantities_saved, quantities_with. apply lookup_insert_eq.
Qed.

(** X10. [add] raises exactly when the id is not a key and
    [int(quantity)] raises, [update] exactly when [int(quantity)] raises,
    [delete] never; the exception is that of [int], and nothing has been
    changed or saved when it is raised. *)
Theorem calls_raise_exactly int_of_str self product quantity w :
  let p := _get_product_id product in
  (∀ e w', add int_of_str self product quantity w = Raises e w'
           ↔ quantities self w !! p = None
             ∧ Py.int int_of_str quantity = inl e ∧ w' = w)
  ∧ (∀ e w', update int_of_str self product quantity w = Raises e w'
             ↔ Py.int int_of_str quantity = inl e ∧ w' = w)
  ∧ (∀ e w', delete self product w ≠ Raises e w').
Proof.
  intros p. split; [|split]; intros e w'.
  - rewrite add_runs. fold p.
    destruct (quantities self w !! p) as [old|];
      [|destruct (Py.int int_of_str quantity) as [e'|n]];
      split; try (intros (? & ? & ?)); try intros ?; by simplify_eq.
  - rewrite update_runs.
    destruct (Py.int int_of_str quantity) as [e'|n];
      split; try (intros (? & ?)); try intros ?; by simplify_eq.
  - rewrite delete_runs. by destruct (quantities self w !! _).
Qed.

(** X11. Saving writes to the profile rows there are and makes none: when
    no row belongs to the user, a call that returns leaves the profile
    table as it was, authenticated or not. *)
Theorem save_makes_no_profile_row int_of_str self c w w' :
  Forall (λ r, Some (user_id r) ≠ user_pk (request_user w)) (profiles w) →
  run int_of_str self c w = Returns () w' →
  profiles w' = profiles w.
Proof.
  intros Hrows Hrun.
  destruct (run_returns_saved _ _ _ _ _ Hrun) as (w0 & -> & Hp & Hu).
  rewrite profiles_saved, Hp, Hu.
  destruct (is_authenticated (request_user w)); [|done].
  by apply profile_update_no_row.
Qed.

Lemma save_makes_no_profile_row_witness :
  let w := holding ∅ (User true (Some 7)) [Profile 8 None] shop in
  profiles (saved the_cart (with_quantities the_cart {[ "p1" := 1 ]} w))
  = [Profile 8 None].
Proof.
  intros w.
  refine (save_makes_no_profile_row Py.plain_decimal the_cart
            (Add (Py.VStr "p1") (Py.VInt 1)) w _ _ eq_refl).
  repeat constructor. simpl. discriminate.
Defined.

(** ** More on the total *)

Lemma Qc_of_Z_nonneg n : 0 ≤ n → (0 <= Qc_of_Z n)%Qc.
Proof.
  intros Hn. unfold Qcle, Qc_of_Z. simpl. rewrite !Qred_correct.
  unfold Qle. simpl. lia.
Qed.

Lemma Qcmult_nonneg (a b : Qc) : (0 <= a → 0 <= b → 0 <= a * b)%Qc.
Proof.
  intros Ha Hb. rewrite <- (Qcmult_0_l b). by apply Qcmult_le_compat_r.
Qed.

Lemma sum_Qc_nonneg l : Forall (λ q, (0 <= q)%Qc) l → (0 <= sum_Qc l)%Qc.
Proof.
  unfold sum_Qc. induction 1 as [|q l Hq _ IH]; simpl.
  - apply Qcle_refl.
  - rewrite <- (Qcplus_0_l 0). by apply Qcplus_le_compat.
Qed.

(** Leaving out what adds nothing does not change a sum. *)
Lemma sum_Qc_filter {A} (f : A → Qc) (g : A → bool) l :
  (∀ x, x ∈ l → g x = false → f x = 0%Qc) →
  sum_Qc (f <$> List.filter g l) = sum_Qc (f <$> l).
Proof.
  unfold sum_Qc. induction l as [|a l IH]; intros H; [done|]. simpl.
  destruct (g a) eqn:E.
  - rewrite fmap_cons. simpl. f_equal. apply IH.
    intros x Hx. by apply H, list_elem_of_further.
  - rewrite (H a) by (done || apply list_elem_of_here).
    rewrite Qcplus_0_l. apply IH.
    intros x Hx. by apply H, list_elem_of_further.
Qed.

Lemma matched_empty id_matches catalogue : matched id_matches ∅ catalogue = [].
Proof.
  unfold matched. induction catalogue as [|c l IH]; [done|]. simpl.
  rewrite bool_decide_eq_false_2; [done|].
  intros (k & Hk & _). rewrite dom_empty_L in Hk. by apply elem_of_empty in Hk.
Qed.

Lemma line_total_nonneg m c :
  nonneg m →
  (0 <= Product.price c)%Qc → (0 <= Product.sale_price c)%Qc →
  (0 <= line_total m c)%Qc.
Proof.
  intros Hm Hprice Hsale. unfold line_total. apply Qcmult_nonneg.
  - unfold unit_price. by destruct (default false (Product.is_sale c)).
  - apply Qc_of_Z_nonneg.
    destruct (m !! Py.str (Product.id c)) as [n|] eqn:E; simpl; [|done].
    exact (Hm _ _ E).
Qed.

(** When a product is matched with the key that is the text of its id,
    the products the lookup leaves out are those that add nothing. *)
Lemma get_total_price_catalogue id_matches self w :
  (∀ c n, c ∈ products w →
     quantities self w !! Py.str (Product.id c) = Some n →
     id_matches (Product.id c) (Py.str (Product.id c)) = true) →
  get_total_price id_matches self w
  = Returns (sum_Qc (line_total (quantities self w) <$> products w)) w.
Proof.
  intros Hid. rewrite get_total_price_runs. f_equal. unfold matched.
  apply sum_Qc_filter. intros c Hc Hout. unfold line_total.
  destruct (quantities self w !! Py.str (Product.id c)) as [n|] eqn:E.
  - apply bool_decide_eq_false in Hout. destruct Hout.
    exists (Py.str (Product.id c)). split; [apply elem_of_dom; eauto|].
    by apply (Hid c n).
  - simpl. rewrite Z2Qc_inj_0. apply Qcmult_0_r.
Qed.

Lemma sum_Qc_cons {A} (f : A → Qc) a l :
  sum_Qc (f <$> a :: l) = (f a + sum_Qc (f <$> l))%Qc.
Proof. done. Qed.

(** What a change of the entry of [p] alone does to the sum over a
    catalogue. *)
Lemma sum_line_total_off (m m' : gmap string Z) p catalogue :
  let priced :=
    List.filter (λ c, bool_decide (Py.str (Product.id c) = p)) catalogue in
  (∀ k, k ≠ p → m' !! k = m !! k) →
  (sum_Qc (line_total m' <$> catalogue)
   + Qc_of_Z (default 0%Z (m !! p)) * sum_Qc (unit_price <$> priced)
   = sum_Qc (line_total m <$> catalogue)
     + Qc_of_Z (default 0%Z (m' !! p)) * sum_Qc (unit_price <$> priced))%Qc.
Proof.
  intros priced Hoff. subst priced.
  induction catalogue as [|c l IH]; [unfold sum_Qc; simpl; ring|].
  cbn [List.filter]. rewrite !(sum_Qc_cons (line_total _)).
  unfold line_total at 1 3.
  set (S' := sum_Qc (line_total m' <$> l)) in *.
  set (S0 := sum_Qc (line_total m <$> l)) in *.
  set (O := Qc_of_Z (default 0%Z (m !! p))) in *.
  set (N := Qc_of_Z (default 0%Z (m' !! p))) in *.
  destruct (bool_decide (Py.str (Product.id c) = p)) eqn:E.
  - apply bool_decide_eq_true in E. rewrite E, sum_Qc_cons. fold O N.
    set (T := sum_Qc (unit_price <$> _)) in *.
    transitivity (unit_price c * N + O * unit_price c + (S' + O * T))%Qc;
      [ring|]. rewrite IH. ring.
  - apply bool_decide_eq_false in E. rewrite (Hoff _ E).
    set (T := sum_Qc (unit_price <$> _)) in *.
    set (a := (unit_price c * _)%Qc).
    transitivity (a + (S' + O * T))%Qc; [ring|]. rewrite IH. ring.
Qed.

(** X12. On a cart with no entry, whatever the catalogue, the length is 0,
    [get_products] returns no product and [get_total_price] returns 0. *)
Theorem empty_cart_is_free id_matches self w :
  quantities self w = ∅ →
  __len__ self w = Returns 0 w
  ∧ get_products id_matches self w = Returns [] w
  ∧ get_total_price id_matches self w = Returns 0%Qc w.
Proof.
  intros Hm. split; [|split].
  - unfold __len__. by rewrite Hm, map_size_empty.
  - by rewrite get_products_matched, Hm, matched_empty.
  - by rewrite get_total_price_runs, Hm, matched_empty.
Qed.

Lemma empty_cart_is_free_witness :
  get_total_price str_matches the_cart (holding ∅ anonymous [] shop)
  = Returns 0%Qc (holding ∅ anonymous [] shop).
Proof.
  exact (proj2 (proj2 (empty_cart_is_free str_matches the_cart
                         (holding ∅ anonymous [] shop) eq_refl))).
Defined.

(** X13. When no quantity of the cart is negative and no price or sale
    price of the catalogue is, the total is not negative. *)
Theorem total_price_nonneg id_matches self w :
  nonneg (quantities self w) →
  Forall (λ c, (0 <= Product.price c)%Qc ∧ (0 <= Product.sale_price c)%Qc)
    (products w) →
  ∃ total, get_total_price id_matches self w = Returns total w
           ∧ (0 <= total)%Qc.
Proof.
  intros Hm Hcat. eexists. split; [apply get_total_price_runs|].
  apply sum_Qc_nonneg, Forall_fmap, Forall_forall. intros c Hc. simpl.
  unfold matched in Hc. apply list_elem_of_In, List.filter_In in Hc as [Hc _].
  apply list_elem_of_In in Hc.
  rewrite Forall_forall in Hcat. destruct (Hcat c Hc).
  by apply line_total_nonneg.
Qed.

Lemma total_price_nonneg_witness :
  ∃ total,
    get_total_price str_matches the_cart
      (holding {[ "p1" := 2; "p2" := 0 ]} anonymous [] shop)
    = Returns total (holding {[ "p1" := 2; "p2" := 0 ]} anonymous [] shop)
    ∧ (0 <= total)%Qc.
Proof.
  apply total_price_nonneg.
  - change (nonneg (<["p1" := 2]> (<["p2" := 0]> ∅))).
    repeat (apply map_Forall_insert_2; [lia|]). apply map_Forall_empty.
  - repeat constructor; by vm_compute.
Defined.

(** X14. When the catalogue lookup matches a product with the key that is
    the text of its id, the total is the sum over the whole catalogue of
    the unit price times the quantity under the text of the id, 0 where
    there is none: the lookup leaves out only what adds nothing. *)
Theorem total_price_over_catalogue id_matches self w :
  (∀ c n, c ∈ products w →
     quantities self w !! Py.str (Product.id c) = Some n →
     id_matches (Product.id c) (Py.str (Product.id c)) = true) →
  get_total_price id_matches self w
  = Returns (sum_Qc (line_total (quantities self w) <$> products w)) w.
Proof. apply get_total_price_catalogue. Qed.

Lemma total_price_over_catalogue_witness :
  let w := holding {[ "p2" := 3 ]} anonymous [] shop in
  get_total_price str_matches the_cart w
  = Returns (sum_Qc (line_total {[ "p2" := 3 ]} <$> shop)) w.
Proof.
  intros w. apply (total_price_over_catalogue str_matches the_cart w).
  intros c n _ _. by apply bool_decide_eq_true_2.
Defined.

(** X15. Under the same matching, a call that returns moves the total by
    the change of the quantity of its product's normalised id, an id that
    is not a key counting as 0, times the unit prices of the catalogue
    products whose id reads as that id. *)
Theorem calls_move_total int_of_str id_matches self c w w' :
  let p := _get_product_id (call_product c) in
  let priced :=
    List.filter (λ c0, bool_decide (Py.str (Product.id c0) = p)) (products w) in
  (∀ c0, c0 ∈ products w →
     id_matches (Product.id c0) (Py.str (Product.id c0)) = true) →
  run int_of_str self c w = Returns () w' →
  ∃ total total',
    get_total_price id_matches self w = Returns total w
    ∧ get_total_price id_matches self w' = Returns total' w'
    ∧ (total' + Qc_of_Z (default 0%Z (quantities self w !! p))
                * sum_Qc (unit_price <$> priced)
       = total + Qc_of_Z (default 0%Z (quantities self w' !! p))
                 * sum_Qc (unit_price <$> priced))%Qc.
Proof.
  intros p priced Hid Hrun.
  assert (Hcat : products w' = products w).
  { destruct (run_returns_with _ _ _ _ _ Hrun) as (w0 & -> & Hw0).
    rewrite products_saved. by destruct Hw0 as [->|[m ->]]. }
  eexists _, _. split; [|split].
  - apply get_total_price_catalogue. intros c0 k Hc _. by apply Hid.
  - apply get_total_price_catalogue. intros c0 k Hc _.
    rewrite Hcat in Hc. by apply Hid.
  - rewrite Hcat. apply sum_line_total_off.
    intros k Hk. by apply (run_other_keys int_of_str self c).
Qed.

Lemma calls_move_total_witness :
  let w := holding {[ "p1" := 2; "p2" := 3 ]} anonymous [] shop in
  let w' := saved the_cart
              (with_quantities the_cart {[ "p1" := 2; "p2" := 5 ]} w) in
  ∃ total total',
    get_total_price str_matches the_cart w = Returns total w
    ∧ get_total_price str_matches the_cart w' = Returns total' w'
    ∧ (total' + Qc_of_Z 3 * sum_Qc [Qc_of_Z 15]
       = total + Qc_of_Z 5 * sum_Qc [Qc_of_Z 15])%Qc.
Proof.
  intros w w'.
  refine (calls_move_total Py.plain_decimal str_matches the_cart
            (Update (Py.VStr "p2") (Py.VStr "5")) w w' _ eq_refl).
  intros c _. by apply bool_decide_eq_true_2.
Defined.

End Cart.
